(** * tox-setuptools-version: the hooks module

    A shallow embedding of [src/tox_setuptools_version/hooks.py] and the
    properties of its version normaliser, its per-environment registry and
    its installation hook.

    Python [str] values are modelled by [string]; a character is a code
    point in the range U+0000..U+00FF, on which [str.lower] and the
    whitespace test of [str.strip] are written out in full. The module-level
    dictionary [PER_ENV_SETUPTOOLS_VERSIONS] is a [gmap string string]. *)

From Stdlib Require Import NArith Ascii String.
From stdpp Require Import gmap strings list fin_maps.

Local Open Scope string_scope.

(** ** Python string primitives *)

Module PyStr.

(** [str.lower] on one code point below U+0100: A-Z, and the Latin-1
    capitals U+00C0..U+00DE except the multiplication sign U+00D7. *)
Definition lower_char (c : ascii) : ascii :=
  let n := N_of_ascii c in
  if ((65 <=? n) && (n <=? 90)
      || (192 <=? n) && (n <=? 214)
      || (216 <=? n) && (n <=? 222))%N
  then ascii_of_N (n + 32)
  else c.

(** [str.isspace] on one code point below U+0100: TAB..CR, FS..US, SPACE,
    NEL and NO-BREAK SPACE. *)
Definition isspace (c : ascii) : bool :=
  let n := N_of_ascii c in
  ((9 <=? n) && (n <=? 13)
   || (28 <=? n) && (n <=? 32)
   || (n =? 133) || (n =? 160))%N.

(** [s.lower()] *)
Fixpoint lower (s : string) : string :=
  match s with
  | EmptyString => EmptyString
  | String c s' => String (lower_char c) (lower s')
  end.

(** [s.lstrip()] *)
Fixpoint lstrip (s : string) : string :=
  match s with
  | EmptyString => EmptyString
  | String c s' => if isspace c then lstrip s' else s
  end.

(** [s.rstrip()] *)
Fixpoint rstrip (s : string) : string :=
  match s with
  | EmptyString => EmptyString
  | String c s' =>
      match rstrip s' with
      | EmptyString => if isspace c then EmptyString else String c EmptyString
      | r => String c r
      end
  end.

(** [s.strip()]: leading whitespace is skipped, then trailing. *)
Definition strip (s : string) : string := rstrip (lstrip s).

(** [s.startswith(p)] *)
Definition startswith (s p : string) : bool := String.prefix p s.

(** Truth value of a possibly-[None] string, as tested by [if x:]. *)
Definition truthy (x : option string) : bool :=
  match x with
  | Some (String _ _) => true
  | _ => false
  end.

(** A string with no whitespace at either end. *)
Definition stripped (s : string) : Prop := lstrip s = s /\ rstrip s = s.

End PyStr.

Import PyStr.

(** ** hooks.py *)

Definition TOX_SETUPTOOLS_VERSION_VAR : string := "TOX_SETUPTOOLS_VERSION".

Definition get_setuptools_package_version (setuptools_version : string) : string :=
  let setuptools_version := strip (lower setuptools_version) in
  if startswith setuptools_version "setuptools" then setuptools_version
  else "setuptools==" +:+ setuptools_version.

(** [d.get(k, default)] on a dictionary with string values, where the
    default may be [None]. *)
Definition dict_get (d : gmap string string) (k : string)
    (default : option string) : option string :=
  match d !! k with
  | Some v => Some v
  | None => default
  end.

(** *** Host objects

    Only the attributes the hooks touch are modelled. *)

(** [action.venvname] exists before tox 3.8 only; reading it afterwards
    raises [AttributeError], and [action.name] is read instead. *)
Record Action := {
  action_venvname : option string;
  action_name : string
}.

(** One call [venv._install(packages, extraopts=..., action=...)]. *)
Record InstallCall := {
  packages : list string;
  extraopts : list string;
  install_action : Action
}.

(** [get_os_environ] is the dictionary returned by [venv._get_os_environ()];
    [install_raises] tells whether [venv._install] fails on a request. *)
Record Venv := {
  get_os_environ : gmap string string;
  install_raises : InstallCall -> bool
}.

(** [envconfig._reader.getstring(name)] yields a string or [None]. *)
Record EnvConfig := {
  reader_getstring : string -> option string
}.

(** [config.envconfigs], in iteration order of [items()]. *)
Record Config := {
  envconfigs : list (string * EnvConfig)
}.

(** *** Process state *)

Record World := {
  PER_ENV_SETUPTOOLS_VERSIONS : gmap string string;
  os_environ : gmap string string;
  stdout : list string;
  install_calls : list InstallCall
}.

Inductive Outcome := Returned | Raised.

Definition initial_world (environ : gmap string string) : World :=
  {| PER_ENV_SETUPTOOLS_VERSIONS := ∅;
     os_environ := environ;
     stdout := [];
     install_calls := [] |}.

Definition set_registry (reg : gmap string string) (w : World) : World :=
  {| PER_ENV_SETUPTOOLS_VERSIONS := reg;
     os_environ := os_environ w;
     stdout := stdout w;
     install_calls := install_calls w |}.

(** [os.getenv(name)] *)
Definition getenv (w : World) (name : string) : option string :=
  os_environ w !! name.

(** [print(line)] *)
Definition print (line : string) (w : World) : World :=
  {| PER_ENV_SETUPTOOLS_VERSIONS := PER_ENV_SETUPTOOLS_VERSIONS w;
     os_environ := os_environ w;
     stdout := stdout w ++ [line];
     install_calls := install_calls w |}.

(** [venv._install(...)]: the request reaches the installer, whose failure
    propagates to the caller. *)
Definition venv_install (venv : Venv) (call : InstallCall) (w : World)
    : Outcome * World :=
  (if install_raises venv call then Raised else Returned,
   {| PER_ENV_SETUPTOOLS_VERSIONS := PER_ENV_SETUPTOOLS_VERSIONS w;
      os_environ := os_environ w;
      stdout := stdout w;
      install_calls := install_calls w ++ [call] |}).

(** *** tox_configure *)

(** Body of the loop of [tox_configure] for one environment (lines 45-46):
    a value that is [None] or empty is not stored. *)
Definition record (env : string) (setuptools_version : option string)
    (reg : gmap string string) : gmap string string :=
  match setuptools_version with
  | Some (String _ _ as v) => <[env := v]> reg
  | _ => reg
  end.

Definition tox_configure (config : Config) (w : World) : World :=
  foldl
    (fun w item =>
       let '(env, envconfig) := item in
       let setuptools_version := reader_getstring envconfig "setuptools_version" in
       set_registry (record env setuptools_version (PER_ENV_SETUPTOOLS_VERSIONS w)) w)
    w (envconfigs config).

(** A sequence of [record] operations applied to a registry. *)
Definition record_all (calls : list (string * option string))
    (reg : gmap string string) : gmap string string :=
  foldl (fun r call => record call.1 call.2 r) reg calls.

(** The [record] operations that [tox_configure] performs for a
    configuration. *)
Definition config_calls (config : Config) : list (string * option string) :=
  map (fun item => (item.1, reader_getstring item.2 "setuptools_version"))
      (envconfigs config).

(** *** tox_testenv_install_deps *)

(** Lines 62-65: the variable from the environment's own map, else from the
    process environment. *)
Definition tox_setuptools_version_from_env (venv : Venv) (w : World)
    : option string :=
  let env := get_os_environ venv in
  dict_get env TOX_SETUPTOOLS_VERSION_VAR (getenv w TOX_SETUPTOOLS_VERSION_VAR).

(** Lines 70-73 *)
Definition venvname_of (action : Action) : string :=
  match action_venvname action with
  | Some venvname => venvname
  | None => action_name action
  end.

(** Lines 76-78: the registry entry, else the fallback. *)
Definition resolve (venvname : string) (fallback : option string)
    (reg : gmap string string) : option string :=
  dict_get reg venvname fallback.

Definition tox_testenv_install_deps (venv : Venv) (action : Action) (w : World)
    : Outcome * World :=
  let tox_setuptools_version_from_env := tox_setuptools_version_from_env venv w in
  let venvname := venvname_of action in
  let setuptools_version :=
    resolve venvname tox_setuptools_version_from_env
            (PER_ENV_SETUPTOOLS_VERSIONS w) in
  match setuptools_version with
  | Some (String _ _ as setuptools_version) =>
      let package := get_setuptools_package_version setuptools_version in
      let w := print (venvname +:+ " setuptools_version is " +:+ package) w in
      venv_install venv
        {| packages := [package];
           extraopts := ["--upgrade"];
           install_action := action |} w
  | _ => (Returned, w)
  end.

(** Case analysis over the 256 code points. *)
Ltac by_cases_on c :=
  destruct c as [[] [] [] [] [] [] [] []]; vm_compute; reflexivity.

(** ** Scenarios of the specification *)

Definition py (name : string) : Action :=
  {| action_venvname := None; action_name := name |}.

Definition venv0 : Venv :=
  {| get_os_environ := ∅; install_raises := fun _ => false |}.

Definition venv_with (v : string) : Venv :=
  {| get_os_environ := {[ TOX_SETUPTOOLS_VERSION_VAR := v ]};
     install_raises := fun _ => false |}.

Definition world_with_process_var (v : string) : World :=
  initial_world {[ TOX_SETUPTOOLS_VERSION_VAR := v ]}.

Definition conf (items : list (string * option string)) : Config :=
  {| envconfigs :=
       map (fun item => (item.1, {| reader_getstring := fun _ => item.2 |})) items |}.

Example normalize_bare :
  get_setuptools_package_version "19.0" = "setuptools==19.0".
Proof. reflexivity. Qed.

Example normalize_mixed_case :
  get_setuptools_package_version "  SetupTools>=18 " = "setuptools>=18".
Proof. reflexivity. Qed.

Example normalize_empty :
  get_setuptools_package_version "" = "setuptools==".
Proof. reflexivity. Qed.

Example normalize_inner_space :
  get_setuptools_package_version " 19 .0" = "setuptools==19 .0".
Proof. reflexivity. Qed.

Example scenario_py36 :
  let w := tox_configure (conf [("py36", Some "19.0")]) (initial_world ∅) in
  map packages (install_calls (tox_testenv_install_deps (venv_with "20.0") (py "py36") w).2)
  = [["setuptools==19.0"]].
Proof. vm_compute. reflexivity. Qed.

Example scenario_py37 :
  let w := tox_configure (conf []) (initial_world ∅) in
  (tox_testenv_install_deps (venv_with "setuptools==21.0") (py "py37") w).2
  = {| PER_ENV_SETUPTOOLS_VERSIONS := ∅; os_environ := ∅;
       stdout := ["py37 setuptools_version is setuptools==21.0"];
       install_calls := [ {| packages := ["setuptools==21.0"];
                             extraopts := ["--upgrade"];
                             install_action := py "py37" |} ] |}.
Proof. vm_compute. reflexivity. Qed.

Example scenario_nothing :
  let w := tox_configure (conf [("py36", Some "19.0")]) (initial_world ∅) in
  tox_testenv_install_deps venv0 (py "py39") w = (Returned, w).
Proof. vm_compute. reflexivity. Qed.

Example scenario_py38 :
  let w := tox_configure (conf [("py38", Some "SetupTools>=18")]) (initial_world ∅) in
  map packages (install_calls (tox_testenv_install_deps (venv_with "1") (py "py38") w).2)
  = [["setuptools>=18"]].
Proof. vm_compute. reflexivity. Qed.

(** ** Facts about the string primitives *)

Section PyStrFacts.

Lemma isspace_lower_char c : isspace (lower_char c) = isspace c.
Proof. by_cases_on c. Qed.

Lemma lower_char_idemp c : lower_char (lower_char c) = lower_char c.
Proof. by_cases_on c. Qed.

Lemma lower_idemp s : lower (lower s) = lower s.
Proof.
  induction s as [|c s IH]; simpl; [reflexivity|].
  now rewrite lower_char_idemp, IH.
Qed.

Lemma lower_app s t : lower (s +:+ t) = lower s +:+ lower t.
Proof. induction s as [|c s IH]; simpl; [reflexivity|]. now rewrite IH. Qed.

Lemma lower_eq_empty s : lower s = "" <-> s = "".
Proof. destruct s; simpl; split; congruence. Qed.

Lemma lower_lstrip s : lower (lstrip s) = lstrip (lower s).
Proof.
  induction s as [|c s IH]; simpl; [reflexivity|].
  rewrite isspace_lower_char. destruct (isspace c); [exact IH | reflexivity].
Qed.

Lemma lower_rstrip s : lower (rstrip s) = rstrip (lower s).
Proof.
  induction s as [|c s IH]; simpl; [reflexivity|].
  rewrite <- IH, isspace_lower_char.
  destruct (rstrip s) as [|d r]; simpl; [|reflexivity].
  destruct (isspace c); reflexivity.
Qed.

(** Lowering and stripping commute, so the order in which the source
    applies them is immaterial. *)
Lemma lower_strip s : lower (strip s) = strip (lower s).
Proof. unfold strip. now rewrite lower_rstrip, lower_lstrip. Qed.

Lemma lstrip_idemp s : lstrip (lstrip s) = lstrip s.
Proof.
  induction s as [|c s IH]; simpl; [reflexivity|].
  destruct (isspace c) eqn:E; [exact IH | simpl; now rewrite E].
Qed.

Lemma rstrip_idemp s : rstrip (rstrip s) = rstrip s.
Proof.
  induction s as [|c s IH]; simpl; [reflexivity|].
  destruct (rstrip s) as [|d r] eqn:R.
  - destruct (isspace c) eqn:E; simpl; [reflexivity | now rewrite E].
  - change (rstrip (String c (String d r))) with
      (match rstrip (String d r) with
       | "" => if isspace c then "" else String c ""
       | r' => String c r'
       end).
    now rewrite IH.
Qed.

(** Stripping on the right keeps a first character that is not whitespace. *)
Lemma lstrip_rstrip_fixed s : lstrip s = s -> lstrip (rstrip s) = rstrip s.
Proof.
  destruct s as [|c s]; simpl; [reflexivity|].
  destruct (isspace c) eqn:E.
  - intros H. exfalso.
    assert (L : forall t, String.length (lstrip t) <= String.length t).
    { induction t as [|d t IHt]; simpl; [lia|]. destruct (isspace d); simpl; lia. }
    specialize (L s). rewrite H in L. simpl in L. lia.
  - intros _. destruct (rstrip s); simpl; now rewrite E.
Qed.

Lemma strip_stripped s : stripped (strip s).
Proof.
  unfold stripped, strip. split.
  - apply lstrip_rstrip_fixed, lstrip_idemp.
  - apply rstrip_idemp.
Qed.

Lemma stripped_strip s : stripped s -> strip s = s.
Proof. unfold stripped, strip. intros [-> ->]. reflexivity. Qed.

Lemma strip_idemp s : strip (strip s) = strip s.
Proof. apply stripped_strip, strip_stripped. Qed.

Lemma rstrip_cons_fixed c s :
  rstrip (String c s) = String c s -> rstrip s = s.
Proof.
  simpl. destruct (rstrip s) as [|d r] eqn:R.
  - destruct (isspace c); [discriminate|]. intros [= <-]. reflexivity.
  - intros [= <-]. reflexivity.
Qed.

Lemma rstrip_singleton_fixed c :
  rstrip (String c "") = String c "" -> isspace c = false.
Proof. simpl. destruct (isspace c); [discriminate | reflexivity]. Qed.

(** A right-stripped string stays right-stripped when a string that does
    not end in whitespace is put in front of it. *)
Lemma rstrip_app_fixed a s :
  rstrip a = a -> rstrip s = s -> rstrip (a +:+ s) = a +:+ s.
Proof.
  induction a as [|c a IH]; intros Ha Hs; [exact Hs|].
  pose proof (rstrip_cons_fixed _ _ Ha) as Ha'.
  change (rstrip (String c a +:+ s)) with
    (match rstrip (a +:+ s) with
     | "" => if isspace c then "" else String c ""
     | r' => String c r'
     end).
  change (String c a +:+ s) with (String c (a +:+ s)).
  rewrite (IH Ha' Hs).
  destruct (a +:+ s) as [|d r] eqn:E; [|reflexivity].
  destruct a; [|discriminate].
  now rewrite (rstrip_singleton_fixed _ Ha).
Qed.

Lemma setuptools_eq_prefix_stripped s :
  rstrip s = s -> stripped ("setuptools==" +:+ s).
Proof.
  intros Hs. split; [reflexivity|].
  apply rstrip_app_fixed; [reflexivity | exact Hs].
Qed.

Lemma startswith_setuptools_eq s :
  startswith ("setuptools==" +:+ s) "setuptools" = true.
Proof. reflexivity. Qed.

End PyStrFacts.

(** ** The version normaliser *)

Section Normalizer.

Implicit Types v x : string.

(** C2: when [v.strip().lower()] does not start with [setuptools], the
    normaliser returns ["setuptools=="] followed by [v.strip().lower()];
    the empty string is among these inputs and yields ["setuptools=="]. *)
Theorem normalize_bare_version v :
  startswith (lower (strip v)) "setuptools" = false ->
  get_setuptools_package_version v = "setuptools==" +:+ lower (strip v).
Proof.
  intros H. unfold get_setuptools_package_version.
  rewrite <- lower_strip. now rewrite H.
Qed.

Lemma normalize_bare_version_witness :
  (startswith (lower (strip "  19.0.RC1 ")) "setuptools" = false /\
   get_setuptools_package_version "  19.0.RC1 " = "setuptools==19.0.rc1") /\
  (startswith (lower (strip "")) "setuptools" = false /\
   get_setuptools_package_version "" = "setuptools==").
Proof.
  split; (split; [reflexivity|]).
  - apply (normalize_bare_version "  19.0.RC1 "). reflexivity.
  - apply (normalize_bare_version ""). reflexivity.
Defined.

(** C3: when [v.strip().lower()] starts with [setuptools], the normaliser
    returns exactly [v.strip().lower()]. *)
Theorem normalize_full_requirement v :
  startswith (lower (strip v)) "setuptools" = true ->
  get_setuptools_package_version v = lower (strip v).
Proof.
  intros H. unfold get_setuptools_package_version.
  rewrite <- lower_strip. now rewrite H.
Qed.

Lemma normalize_full_requirement_witness :
  startswith (lower (strip " SetupTools>=18 ")) "setuptools" = true /\
  get_setuptools_package_version " SetupTools>=18 " = "setuptools>=18".
Proof.
  split; [reflexivity|].
  apply (normalize_full_requirement " SetupTools>=18 "). reflexivity.
Defined.

(** The output of the normaliser is lower case, has no outer whitespace and
    starts with [setuptools]. *)
Lemma normalize_output x :
  let r := get_setuptools_package_version x in
  lower r = r /\ stripped r /\ startswith r "setuptools" = true.
Proof.
  unfold get_setuptools_package_version.
  pose proof (strip_stripped (lower x)) as St.
  assert (Lo : lower (strip (lower x)) = strip (lower x))
    by now rewrite lower_strip, lower_idemp.
  destruct (startswith (strip (lower x)) "setuptools") eqn:E; cbv zeta.
  - now split; [|split].
  - split; [|split].
    + rewrite lower_app, Lo. reflexivity.
    + apply setuptools_eq_prefix_stripped, St.
    + apply startswith_setuptools_eq.
Qed.

(** C8: normalising the output of the normaliser changes nothing. *)
Theorem normalize_idempotent x :
  get_setuptools_package_version (get_setuptools_package_version x)
  = get_setuptools_package_version x.
Proof.
  destruct (normalize_output x) as (Lo & St & Pre).
  set (r := get_setuptools_package_version x) in *.
  unfold get_setuptools_package_version at 1.
  now rewrite Lo, (stripped_strip _ St), Pre.
Qed.

End Normalizer.

(** ** The registry *)

Section Registry.

Implicit Types (env : string) (reg : gmap string string).
Implicit Types (calls : list (string * option string)).

Lemma truthy_Some_nonempty x : x ≠ "" -> truthy (Some x) = true.
Proof. destruct x; [congruence | reflexivity]. Qed.

Lemma truthy_inv (v : option string) :
  truthy v = true -> exists x, v = Some x /\ x ≠ "".
Proof. destruct v as [[|c s]|]; try discriminate. intros _. now eexists. Qed.

Lemma record_falsy env (v : option string) reg :
  truthy v = false -> record env v reg = reg.
Proof. destruct v as [[|c s]|]; [reflexivity | discriminate | reflexivity]. Qed.

Lemma record_nonempty env x reg :
  x ≠ "" -> record env (Some x) reg = <[env := x]> reg.
Proof. destruct x; [congruence | reflexivity]. Qed.

Lemma record_lookup_ne env env' (v : option string) reg :
  env ≠ env' -> record env v reg !! env' = reg !! env'.
Proof.
  intros Hne. destruct v as [[|c s]|]; simpl; [reflexivity | | reflexivity].
  now rewrite lookup_insert_ne.
Qed.

Lemma record_all_cons env (v : option string) calls reg :
  record_all ((env, v) :: calls) reg = record_all calls (record env v reg).
Proof. reflexivity. Qed.

Lemma record_all_app calls1 calls2 reg :
  record_all (calls1 ++ calls2) reg = record_all calls2 (record_all calls1 reg).
Proof. apply foldl_app. Qed.

(** Calls that carry no usable value for [env] leave its entry alone. *)
Lemma record_all_falsy env calls reg :
  (forall v, (env, v) ∈ calls -> truthy v = false) ->
  record_all calls reg !! env = reg !! env.
Proof.
  revert reg. induction calls as [|[e v] calls IH]; intros reg H; [reflexivity|].
  rewrite record_all_cons, IH.
  - destruct (decide (e = env)) as [->|Hne].
    + rewrite record_falsy; [reflexivity|]. apply H. left.
    + now apply record_lookup_ne.
  - intros v' Hin. apply H. now right.
Qed.

Lemma record_is_Some env env' (v : option string) reg :
  is_Some (reg !! env') -> is_Some (record env v reg !! env').
Proof.
  intros H. destruct v as [[|c s]|]; simpl; try exact H.
  rewrite lookup_insert_is_Some. destruct (decide (env = env')); auto.
Qed.

Lemma record_all_is_Some env calls reg :
  is_Some (reg !! env) -> is_Some (record_all calls reg !! env).
Proof.
  revert reg. induction calls as [|[e v] calls IH]; intros reg H; [exact H|].
  rewrite record_all_cons. now apply IH, record_is_Some.
Qed.

(** Every entry is either inherited or comes from a call with a non-empty
    string. *)
Lemma record_all_lookup_inv env x calls reg :
  record_all calls reg !! env = Some x ->
  reg !! env = Some x \/ ((env, Some x) ∈ calls /\ x ≠ "").
Proof.
  revert reg. induction calls as [|[e v] calls IH]; intros reg H; [now left|].
  rewrite record_all_cons in H. destruct (IH _ H) as [Hreg|[Hin Hx]].
  - destruct (truthy v) eqn:T.
    + destruct (truthy_inv _ T) as (y & -> & Hy).
      rewrite record_nonempty in Hreg by exact Hy.
      apply lookup_insert_Some in Hreg as [[-> ->]|[_ Hreg]].
      * right. split; [left | exact Hy].
      * now left.
    + rewrite record_falsy in Hreg by exact T. now left.
  - right. split; [now right | exact Hx].
Qed.

Lemma record_all_recorded env x calls reg :
  (env, Some x) ∈ calls -> x ≠ "" -> is_Some (record_all calls reg !! env).
Proof.
  revert reg. induction calls as [|[e v] calls IH]; intros reg Hin Hx.
  - now apply elem_of_nil in Hin.
  - rewrite record_all_cons. apply elem_of_cons in Hin as [[= <- <-]|Hin].
    + apply record_all_is_Some. rewrite record_nonempty by exact Hx.
      rewrite lookup_insert_eq. now eexists.
    + now apply IH.
Qed.

(** [tox_configure] performs the [record] operations of the configuration
    and touches nothing but the registry. *)
Lemma tox_configure_registry config w :
  tox_configure config w
  = set_registry (record_all (config_calls config) (PER_ENV_SETUPTOOLS_VERSIONS w)) w.
Proof.
  unfold tox_configure, config_calls. destruct config as [items]. simpl.
  revert w. induction items as [|[e ec] items IH]; intros w.
  - now destruct w.
  - simpl. rewrite IH. reflexivity.
Qed.

Lemma record_all_empty_lookup calls env x :
  record_all calls ∅ !! env = Some x -> (env, Some x) ∈ calls /\ x ≠ "".
Proof.
  intros H. apply record_all_lookup_inv in H as [H|H]; [|exact H].
  now rewrite lookup_empty in H.
Qed.

Lemma record_all_empty_is_Some calls env :
  is_Some (record_all calls ∅ !! env)
  <-> exists x, (env, Some x) ∈ calls /\ x ≠ "".
Proof.
  split.
  - intros [x H]. exists x. now apply record_all_empty_lookup.
  - intros (x & Hin & Hx). now apply record_all_recorded with x.
Qed.

(** C4: starting from the empty registry, after any sequence of [record]
    operations an environment has an entry exactly when [record] was called
    for it with a present, non-empty string; every stored value is such a
    string; and [record] with an absent or an empty value stores nothing. *)
Theorem registry_invariant calls env :
  (is_Some (record_all calls ∅ !! env)
     <-> exists x, (env, Some x) ∈ calls /\ x ≠ "")
  /\ (forall x, record_all calls ∅ !! env = Some x ->
        (env, Some x) ∈ calls /\ x ≠ "")
  /\ (forall reg, record env None reg = reg /\ record env (Some "") reg = reg).
Proof.
  split; [|split].
  - apply record_all_empty_is_Some.
  - intros x. apply record_all_empty_lookup.
  - intros reg. now split.
Qed.

(** The same invariant on the dictionary that [tox_configure] leaves behind
    when it starts from the empty one. *)
Corollary tox_configure_invariant config environ env :
  is_Some (PER_ENV_SETUPTOOLS_VERSIONS
             (tox_configure config (initial_world environ)) !! env)
  <-> exists envconfig x,
        (env, envconfig) ∈ envconfigs config
        /\ reader_getstring envconfig "setuptools_version" = Some x
        /\ x ≠ "".
Proof.
  rewrite tox_configure_registry. simpl.
  rewrite record_all_empty_is_Some. unfold config_calls.
  split.
  - intros (x & Hin & Hx). apply list_elem_of_In, in_map_iff in Hin.
    destruct Hin as ([e ec] & [= <- Hget] & Hin). simpl in *.
    exists ec, x. now rewrite list_elem_of_In.
  - intros (ec & x & Hin & Hget & Hx). exists x. split; [|exact Hx].
    apply list_elem_of_In, in_map_iff. exists (env, ec). simpl.
    rewrite Hget. now rewrite <- list_elem_of_In.
Qed.

End Registry.

(** ** Resolution and the installation hook *)

Section Resolution.

Implicit Types (env : string) (reg : gmap string string).
Implicit Types (fallback : option string) (venv : Venv) (action : Action).
Implicit Types (w : World).

Lemma resolve_present env x fallback reg :
  reg !! env = Some x -> resolve env fallback reg = Some x.
Proof. unfold resolve, dict_get. now intros ->. Qed.

Lemma resolve_missing env fallback reg :
  reg !! env = None -> resolve env fallback reg = fallback.
Proof. unfold resolve, dict_get. now intros ->. Qed.

(** C1: once [record env x] has run with a non-empty [x], and no later call
    replaces the entry, the registry holds [x] for [env] and [resolve]
    returns [x] whatever the fallback is. *)
Theorem resolve_registry_wins env x fallback reg
    (later : list (string * option string)) :
  x ≠ "" ->
  (forall v, (env, v) ∈ later -> truthy v = false) ->
  record_all later (record env (Some x) reg) !! env = Some x
  /\ resolve env fallback (record_all later (record env (Some x) reg)) = Some x.
Proof.
  intros Hx Hlater.
  assert (H : record_all later (record env (Some x) reg) !! env = Some x).
  { rewrite record_all_falsy by exact Hlater.
    rewrite record_nonempty by exact Hx. apply lookup_insert_eq. }
  split; [exact H | now apply resolve_present].
Qed.

Lemma resolve_registry_wins_witness :
  "19.0" ≠ ""
  /\ (forall v, ("py36", v) ∈ [("py37", Some "21.0"); ("py36", Some "")] ->
        truthy v = false)
  /\ resolve "py36" (Some "20.0")
       (record_all [("py37", Some "21.0"); ("py36", Some "")]
          (record "py36" (Some "19.0") ∅)) = Some "19.0".
Proof.
  assert (H1 : "19.0" ≠ "") by discriminate.
  assert (H2 : forall v, ("py36", v) ∈ [("py37", Some "21.0"); ("py36", Some "")] ->
                 truthy v = false).
  { intros v Hin. apply elem_of_cons in Hin as [[=]|Hin].
    apply list_elem_of_singleton in Hin as [= ->]. reflexivity. }
  split; [exact H1 | split; [exact H2|]].
  exact (proj2 (resolve_registry_wins "py36" "19.0" (Some "20.0") ∅ _ H1 H2)).
Defined.

(** C5: when no [record] call for [env] carried a present, non-empty string
    (in particular when there was no call for [env] at all), [resolve]
    returns the fallback. *)
Theorem resolve_falls_back env fallback
    (calls : list (string * option string)) :
  (forall v, (env, v) ∈ calls -> truthy v = false) ->
  resolve env fallback (record_all calls ∅) = fallback.
Proof.
  intros H. apply resolve_missing.
  rewrite record_all_falsy by exact H. apply lookup_empty.
Qed.

Lemma resolve_falls_back_witness :
  (forall v, ("py37", v) ∈ [("py36", Some "19.0"); ("py37", None); ("py37", Some "")] ->
     truthy v = false)
  /\ resolve "py37" (Some "setuptools==21.0")
       (record_all [("py36", Some "19.0"); ("py37", None); ("py37", Some "")] ∅)
     = Some "setuptools==21.0".
Proof.
  assert (H : forall v,
             ("py37", v) ∈ [("py36", Some "19.0"); ("py37", None); ("py37", Some "")] ->
             truthy v = false).
  { intros v Hin. apply elem_of_cons in Hin as [[=]|Hin].
    apply elem_of_cons in Hin as [[= ->]|Hin]; [reflexivity|].
    apply list_elem_of_singleton in Hin as [= ->]. reflexivity. }
  split; [exact H|].
  exact (resolve_falls_back "py37" (Some "setuptools==21.0") _ H).
Defined.

(** C6: the fallback is the value of [TOX_SETUPTOOLS_VERSION] in the
    environment's own variable map when that map has the key, and the
    process-level value of the same variable only when it has not. *)
Theorem fallback_two_level venv w :
  (forall v, get_os_environ venv !! TOX_SETUPTOOLS_VERSION_VAR = Some v ->
     tox_setuptools_version_from_env venv w = Some v)
  /\ (get_os_environ venv !! TOX_SETUPTOOLS_VERSION_VAR = None ->
        tox_setuptools_version_from_env venv w
        = os_environ w !! TOX_SETUPTOOLS_VERSION_VAR).
Proof.
  unfold tox_setuptools_version_from_env, dict_get, getenv.
  split; [intros v|]; now intros ->.
Qed.

Lemma fallback_two_level_witness :
  tox_setuptools_version_from_env (venv_with "20.0") (world_with_process_var "58.0.0")
  = Some "20.0"
  /\ tox_setuptools_version_from_env venv0 (world_with_process_var "58.0.0")
     = Some "58.0.0".
Proof.
  split.
  - apply (proj1 (fallback_two_level (venv_with "20.0") (world_with_process_var "58.0.0"))).
    reflexivity.
  - apply (proj2 (fallback_two_level venv0 (world_with_process_var "58.0.0"))).
    reflexivity.
Defined.

(** The hook does nothing when the resolved value is [None] or empty. *)
Lemma install_deps_falsy venv action w :
  truthy (resolve (venvname_of action) (tox_setuptools_version_from_env venv w)
            (PER_ENV_SETUPTOOLS_VERSIONS w)) = false ->
  tox_testenv_install_deps venv action w = (Returned, w).
Proof.
  unfold tox_testenv_install_deps.
  destruct (resolve _ _ _) as [[|c s]|]; [reflexivity | discriminate | reflexivity].
Qed.

(** The hook prints one line and issues one install request when the
    resolved value is a non-empty string. *)
Lemma install_deps_truthy venv action w x :
  resolve (venvname_of action) (tox_setuptools_version_from_env venv w)
    (PER_ENV_SETUPTOOLS_VERSIONS w) = Some x ->
  x ≠ "" ->
  tox_testenv_install_deps venv action w
  = venv_install venv
      {| packages := [get_setuptools_package_version x];
         extraopts := ["--upgrade"];
         install_action := action |}
      (print (venvname_of action +:+ " setuptools_version is "
                +:+ get_setuptools_package_version x) w).
Proof.
  unfold tox_testenv_install_deps. intros -> Hx.
  destruct x; [congruence | reflexivity].
Qed.

(** C7: with no registry entry for the environment and no value from the
    fallback source, resolution yields [None] and the hook returns normally
    without printing and without calling the installer. *)
Theorem install_deps_nothing_found venv action w :
  PER_ENV_SETUPTOOLS_VERSIONS w !! venvname_of action = None ->
  tox_setuptools_version_from_env venv w = None ->
  resolve (venvname_of action) (tox_setuptools_version_from_env venv w)
    (PER_ENV_SETUPTOOLS_VERSIONS w) = None
  /\ tox_testenv_install_deps venv action w = (Returned, w).
Proof.
  intros Hreg Hfb.
  assert (H : resolve (venvname_of action) (tox_setuptools_version_from_env venv w)
                (PER_ENV_SETUPTOOLS_VERSIONS w) = None)
    by (rewrite resolve_missing by exact Hreg; exact Hfb).
  split; [exact H|]. apply install_deps_falsy. now rewrite H.
Qed.

Lemma install_deps_nothing_found_witness :
  let w := tox_configure (conf [("py36", Some "19.0")]) (initial_world ∅) in
  PER_ENV_SETUPTOOLS_VERSIONS w !! venvname_of (py "py39") = None
  /\ tox_setuptools_version_from_env venv0 w = None
  /\ install_calls (tox_testenv_install_deps venv0 (py "py39") w).2 = [].
Proof.
  set (w := tox_configure (conf [("py36", Some "19.0")]) (initial_world ∅)).
  assert (H1 : PER_ENV_SETUPTOOLS_VERSIONS w !! venvname_of (py "py39") = None)
    by (vm_compute; reflexivity).
  assert (H2 : tox_setuptools_version_from_env venv0 w = None)
    by (vm_compute; reflexivity).
  split; [exact H1 | split; [exact H2|]].
  now rewrite (proj2 (install_deps_nothing_found venv0 (py "py39") w H1 H2)).
Defined.

(** The hook leaves the registry and the process environment as they are,
    whether the installer fails or not. *)
Lemma install_deps_frame venv action w :
  PER_ENV_SETUPTOOLS_VERSIONS (tox_testenv_install_deps venv action w).2
  = PER_ENV_SETUPTOOLS_VERSIONS w
  /\ os_environ (tox_testenv_install_deps venv action w).2 = os_environ w.
Proof.
  unfold tox_testenv_install_deps.
  destruct (resolve _ _ _) as [[|c s]|]; now split.
Qed.

(** C9: the installation hook never changes the registry, and running it
    for one environment leaves the value resolved for any environment (and
    what the hook then does for it) as it was. *)
Theorem install_deps_preserves_registry venv action w :
  PER_ENV_SETUPTOOLS_VERSIONS (tox_testenv_install_deps venv action w).2
  = PER_ENV_SETUPTOOLS_VERSIONS w
  /\ forall venv' action',
       resolve (venvname_of action')
         (tox_setuptools_version_from_env venv'
            (tox_testenv_install_deps venv action w).2)
         (PER_ENV_SETUPTOOLS_VERSIONS (tox_testenv_install_deps venv action w).2)
       = resolve (venvname_of action') (tox_setuptools_version_from_env venv' w)
           (PER_ENV_SETUPTOOLS_VERSIONS w).
Proof.
  destruct (install_deps_frame venv action w) as [Hreg Henv].
  split; [exact Hreg|]. intros venv' action'.
  unfold tox_setuptools_version_from_env, getenv. now rewrite Hreg, Henv.
Qed.

(** C10: an empty [TOX_SETUPTOOLS_VERSION] in the environment's own variable
    map is the fallback whatever the process environment holds, and for an
    environment without a registry entry the hook then requests nothing. *)
Theorem empty_setenv_shadows_process_env venv action w :
  get_os_environ venv !! TOX_SETUPTOOLS_VERSION_VAR = Some "" ->
  PER_ENV_SETUPTOOLS_VERSIONS w !! venvname_of action = None ->
  tox_setuptools_version_from_env venv w = Some ""
  /\ tox_testenv_install_deps venv action w = (Returned, w).
Proof.
  intros Henv Hreg.
  assert (Hfb : tox_setuptools_version_from_env venv w = Some "")
    by (unfold tox_setuptools_version_from_env, dict_get; now rewrite Henv).
  split; [exact Hfb|]. apply install_deps_falsy.
  now rewrite resolve_missing, Hfb by exact Hreg.
Qed.

Lemma empty_setenv_shadows_process_env_witness :
  get_os_environ (venv_with "") !! TOX_SETUPTOOLS_VERSION_VAR = Some ""
  /\ PER_ENV_SETUPTOOLS_VERSIONS (world_with_process_var "58.0.0")
       !! venvname_of (py "py36") = None
  /\ getenv (world_with_process_var "58.0.0") TOX_SETUPTOOLS_VERSION_VAR
     = Some "58.0.0"
  /\ install_calls
       (tox_testenv_install_deps (venv_with "") (py "py36")
          (world_with_process_var "58.0.0")).2 = [].
Proof.
  assert (H1 : get_os_environ (venv_with "") !! TOX_SETUPTOOLS_VERSION_VAR = Some "")
    by (vm_compute; reflexivity).
  assert (H2 : PER_ENV_SETUPTOOLS_VERSIONS (world_with_process_var "58.0.0")
               !! venvname_of (py "py36") = None)
    by (vm_compute; reflexivity).
  split; [exact H1 | split; [exact H2 | split; [vm_compute; reflexivity|]]].
  now rewrite (proj2 (empty_setenv_shadows_process_env _ (py "py36") _ H1 H2)).
Defined.

(** With the variable absent from the environment's own map, the same
    process-level value is installed. *)
Example process_env_used_when_unset :
  map packages
    (install_calls
       (tox_testenv_install_deps venv0 (py "py36")
          (world_with_process_var "58.0.0")).2)
  = [["setuptools==58.0.0"]].
Proof. vm_compute. reflexivity. Qed.

(** A failing installer leaves the registry untouched and the failure
    reaches the caller. *)
Example failing_install_propagates :
  let venv := {| get_os_environ := ∅; install_raises := fun _ => true |} in
  let w := tox_configure (conf [("py36", Some "19.0")]) (initial_world ∅) in
  (tox_testenv_install_deps venv (py "py36") w).1 = Raised
  /\ PER_ENV_SETUPTOOLS_VERSIONS (tox_testenv_install_deps venv (py "py36") w).2
     = PER_ENV_SETUPTOOLS_VERSIONS w.
Proof. split; vm_compute; reflexivity. Qed.

End Resolution.

(** ** Further properties of the normaliser *)

Section NormalizerShape.

(** X1: whatever the input, the requirement handed to the installer names a
    distribution whose name starts with [setuptools], is lower case and
    carries no outer whitespace. *)
Theorem normalize_always_setuptools (x : string) :
  startswith (get_setuptools_package_version x) "setuptools" = true
  /\ lower (get_setuptools_package_version x) = get_setuptools_package_version x
  /\ strip (get_setuptools_package_version x) = get_setuptools_package_version x.
Proof.
  destruct (normalize_output x) as (Lo & St & Pre).
  split; [exact Pre | split; [exact Lo | now apply stripped_strip]].
Qed.

(** X2: letter case and outer whitespace of the configured value do not matter:
    lowering or stripping the input beforehand gives the same requirement. *)
Theorem normalize_case_space_insensitive (v : string) :
  get_setuptools_package_version (lower v) = get_setuptools_package_version v
  /\ get_setuptools_package_version (strip v) = get_setuptools_package_version v.
Proof.
  unfold get_setuptools_package_version. split.
  - now rewrite lower_idemp.
  - now rewrite lower_strip, strip_idemp.
Qed.

End NormalizerShape.

(** ** Further properties of the configuration phase *)

Section ConfigurePhase.

Implicit Types (env : string) (reg : gmap string string) (w : World).
Implicit Types (calls : list (string * option string)) (config : Config).

Lemma config_calls_elem config env (v : option string) :
  (env, v) ∈ config_calls config
  <-> exists envconfig,
        (env, envconfig) ∈ envconfigs config
        /\ reader_getstring envconfig "setuptools_version" = v.
Proof.
  unfold config_calls. rewrite list_elem_of_In, in_map_iff. split.
  - intros ([e ec] & [= <- <-] & Hin). exists ec. now rewrite list_elem_of_In.
  - intros (ec & Hin & <-). exists (env, ec). now rewrite <- list_elem_of_In.
Qed.

Lemma config_calls_keys config :
  map fst (config_calls config) = map fst (envconfigs config).
Proof.
  unfold config_calls. induction (envconfigs config) as [|[e ec] l IH];
    simpl; [reflexivity | now rewrite IH].
Qed.

Lemma elem_of_keys env (v : option string) calls :
  (env, v) ∈ calls -> env ∈ map fst calls.
Proof.
  rewrite !list_elem_of_In. intros H. now apply (in_map fst) in H.
Qed.

Lemma record_all_untouched env calls reg :
  env ∉ map fst calls -> record_all calls reg !! env = reg !! env.
Proof.
  intros H. apply record_all_falsy. intros v Hin.
  destruct H. now apply elem_of_keys with v.
Qed.

(** With one call per environment the stored value is that of the call. *)
Lemma record_all_unique env x calls reg :
  NoDup (map fst calls) -> (env, Some x) ∈ calls -> x ≠ "" ->
  record_all calls reg !! env = Some x.
Proof.
  revert reg. induction calls as [|[e v] calls IH]; intros reg Hnd Hin Hx.
  - now apply elem_of_nil in Hin.
  - simpl in Hnd. apply NoDup_cons in Hnd as [Hfresh Hnd].
    rewrite record_all_cons. apply elem_of_cons in Hin as [[= <- <-]|Hin].
    + rewrite record_all_untouched by exact Hfresh.
      rewrite record_nonempty by exact Hx. apply lookup_insert_eq.
    + now apply IH.
Qed.

(** For each environment, a sequence of calls either leaves the entry as it
    finds it or sets it to a value fixed by the sequence alone. *)
Lemma record_all_lookup_uniform env calls :
  (forall reg, record_all calls reg !! env = reg !! env)
  \/ (exists x, x ≠ "" /\ forall reg, record_all calls reg !! env = Some x).
Proof.
  induction calls as [|[e v] calls IH]; [now left|].
  destruct IH as [Hkeep|(x & Hx & Hset)].
  - destruct (decide (e = env)) as [->|Hne].
    + destruct (truthy v) eqn:T.
      * destruct (truthy_inv _ T) as (y & -> & Hy). right. exists y.
        split; [exact Hy|]. intros reg.
        rewrite record_all_cons, Hkeep, record_nonempty by exact Hy.
        apply lookup_insert_eq.
      * left. intros reg. rewrite record_all_cons, Hkeep.
        now rewrite record_falsy.
    + left. intros reg. rewrite record_all_cons, Hkeep.
      now apply record_lookup_ne.
  - right. exists x. split; [exact Hx|]. intros reg.
    rewrite record_all_cons. apply Hset.
Qed.

Lemma record_all_idemp calls reg :
  record_all calls (record_all calls reg) = record_all calls reg.
Proof.
  apply map_eq. intros env.
  destruct (record_all_lookup_uniform env calls) as [Hkeep|(x & _ & Hset)].
  - apply Hkeep.
  - now rewrite !Hset.
Qed.

(** X3: [tox_configure] writes the registry and nothing else: it prints
    nothing, requests no installation and leaves the process environment
    alone. *)
Theorem tox_configure_only_writes_registry config w :
  stdout (tox_configure config w) = stdout w
  /\ install_calls (tox_configure config w) = install_calls w
  /\ os_environ (tox_configure config w) = os_environ w.
Proof. rewrite tox_configure_registry. now repeat split. Qed.

(** X4: [config.envconfigs] is a dictionary, so each environment occurs once;
    the registry then maps an environment of the configuration to exactly
    its declared [setuptools_version], provided that is a non-empty string,
    whatever the registry held before. *)
Theorem tox_configure_stores_declared config w env (envconfig : EnvConfig) x :
  NoDup (map fst (envconfigs config)) ->
  (env, envconfig) ∈ envconfigs config ->
  reader_getstring envconfig "setuptools_version" = Some x ->
  x ≠ "" ->
  PER_ENV_SETUPTOOLS_VERSIONS (tox_configure config w) !! env = Some x.
Proof.
  intros Hnd Hin Hget Hx. rewrite tox_configure_registry. simpl.
  apply record_all_unique; [now rewrite config_calls_keys | | exact Hx].
  apply config_calls_elem. now exists envconfig.
Qed.

Lemma tox_configure_stores_declared_witness :
  let config := conf [("py36", Some "19.0"); ("py37", None); ("py38", Some "20.0")] in
  let w := tox_configure (conf [("py38", Some "1.0")]) (initial_world ∅) in
  PER_ENV_SETUPTOOLS_VERSIONS w !! "py38" = Some "1.0"
  /\ PER_ENV_SETUPTOOLS_VERSIONS (tox_configure config w) !! "py38" = Some "20.0".
Proof.
  split; [vm_compute; reflexivity|].
  apply (tox_configure_stores_declared
           (conf [("py36", Some "19.0"); ("py37", None); ("py38", Some "20.0")])
           (tox_configure (conf [("py38", Some "1.0")]) (initial_world ∅))
           "py38" {| reader_getstring := fun _ => Some "20.0" |} "20.0").
  - apply (bool_decide_unpack _). vm_compute. exact I.
  - simpl. do 2 apply list_elem_of_further. apply list_elem_of_here.
  - reflexivity.
  - discriminate.
Defined.

(** X5: an environment that the configuration does not list keeps whatever the
    registry held for it, an entry or none. *)
Theorem tox_configure_skips_unlisted config w env :
  env ∉ map fst (envconfigs config) ->
  PER_ENV_SETUPTOOLS_VERSIONS (tox_configure config w) !! env
  = PER_ENV_SETUPTOOLS_VERSIONS w !! env.
Proof.
  intros H. rewrite tox_configure_registry. simpl.
  apply record_all_untouched. now rewrite config_calls_keys.
Qed.

Lemma tox_configure_skips_unlisted_witness :
  let config := conf [("py36", Some "19.0"); ("py37", None)] in
  let w := tox_configure (conf [("py38", Some "1.0")]) (initial_world ∅) in
  ("py38" ∉ map fst (envconfigs config))
  /\ PER_ENV_SETUPTOOLS_VERSIONS (tox_configure config w) !! "py38" = Some "1.0".
Proof.
  assert (H : "py38" ∉ map fst
                (envconfigs (conf [("py36", Some "19.0"); ("py37", None)]))).
  { apply (bool_decide_unpack _). vm_compute. exact I. }
  split; [exact H|].
  rewrite (tox_configure_skips_unlisted
             (conf [("py36", Some "19.0"); ("py37", None)])
             (tox_configure (conf [("py38", Some "1.0")]) (initial_world ∅))
             "py38" H).
  vm_compute. reflexivity.
Defined.

(** X6: [tox_configure] never removes an entry: an environment that had one
    still has one afterwards, holding either the old value or a non-empty
    value that the configuration declares for it. *)
Theorem tox_configure_keeps_entries config w env x :
  PER_ENV_SETUPTOOLS_VERSIONS w !! env = Some x ->
  exists y,
    PER_ENV_SETUPTOOLS_VERSIONS (tox_configure config w) !! env = Some y
    /\ (y = x
        \/ (y ≠ ""
            /\ exists envconfig,
                 (env, envconfig) ∈ envconfigs config
                 /\ reader_getstring envconfig "setuptools_version" = Some y)).
Proof.
  intros Hx. rewrite tox_configure_registry. simpl.
  destruct (record_all_is_Some env (config_calls config)
              (PER_ENV_SETUPTOOLS_VERSIONS w)) as [y Hy]; [now rewrite Hx|].
  exists y. split; [exact Hy|].
  apply record_all_lookup_inv in Hy as [Hy|[Hin Hne]].
  - left. congruence.
  - right. split; [exact Hne|]. now apply config_calls_elem.
Qed.

Lemma tox_configure_keeps_entries_witness :
  let w := tox_configure (conf [("py38", Some "1.0")]) (initial_world ∅) in
  PER_ENV_SETUPTOOLS_VERSIONS w !! "py38" = Some "1.0"
  /\ exists y,
       PER_ENV_SETUPTOOLS_VERSIONS
         (tox_configure (conf [("py38", Some ""); ("py36", Some "19.0")]) w)
         !! "py38" = Some y.
Proof.
  assert (H : PER_ENV_SETUPTOOLS_VERSIONS
                (tox_configure (conf [("py38", Some "1.0")]) (initial_world ∅))
                !! "py38" = Some "1.0") by (vm_compute; reflexivity).
  split; [exact H|].
  destruct (tox_configure_keeps_entries
              (conf [("py38", Some ""); ("py36", Some "19.0")]) _ _ _ H)
    as (y & Hy & _).
  now exists y.
Defined.

(** X7: running [tox_configure] a second time on the same configuration changes
    nothing. *)
Theorem tox_configure_idempotent config w :
  tox_configure config (tox_configure config w) = tox_configure config w.
Proof.
  rewrite !tox_configure_registry. unfold set_registry. simpl.
  now rewrite record_all_idemp.
Qed.

End ConfigurePhase.

(** ** Further properties of the installation phase *)

Section InstallPhase.

Local Open Scope list_scope.

Implicit Types (venv : Venv) (action : Action) (w : World) (config : Config).

Lemma install_deps_truthy_log venv action w x :
  resolve (venvname_of action) (tox_setuptools_version_from_env venv w)
    (PER_ENV_SETUPTOOLS_VERSIONS w) = Some x ->
  x ≠ "" ->
  install_calls (tox_testenv_install_deps venv action w).2
  = install_calls w
    ++ [ {| packages := [get_setuptools_package_version x];
            extraopts := ["--upgrade"];
            install_action := action |} ].
Proof. intros H Hx. now rewrite (install_deps_truthy _ _ _ _ H Hx). Qed.

(** X8: one run of the hook either changes nothing and returns, or prints one
    line and sends the installer one request: a single requirement that
    starts with [setuptools], with [--upgrade], for the action it was given.
    The hook fails exactly when the installer fails on that request. *)
Theorem install_deps_effects venv action w :
  tox_testenv_install_deps venv action w = (Returned, w)
  \/ exists package,
       startswith package "setuptools" = true
       /\ install_calls (tox_testenv_install_deps venv action w).2
          = install_calls w
            ++ [ {| packages := [package]; extraopts := ["--upgrade"];
                    install_action := action |} ]
       /\ stdout (tox_testenv_install_deps venv action w).2
          = stdout w
            ++ [venvname_of action +:+ " setuptools_version is " +:+ package]
       /\ (tox_testenv_install_deps venv action w).1
          = (if install_raises venv
                  {| packages := [package]; extraopts := ["--upgrade"];
                     install_action := action |}
             then Raised else Returned).
Proof.
  destruct (resolve (venvname_of action) (tox_setuptools_version_from_env venv w)
              (PER_ENV_SETUPTOOLS_VERSIONS w)) as [x|] eqn:R.
  - destruct (decide (x = "")) as [->|Hx].
    + left. apply install_deps_falsy. now rewrite R.
    + right. exists (get_setuptools_package_version x).
      rewrite (install_deps_truthy _ _ _ _ R Hx).
      split; [apply normalize_output | now repeat split].
  - left. apply install_deps_falsy. now rewrite R.
Qed.

(** X9: both phases together: for an environment whose section declares a
    non-empty [setuptools_version], the hook requests the normalised form of
    that value, whatever [TOX_SETUPTOOLS_VERSION] is in the environment's
    own variables or in the process environment. *)
Theorem configured_version_is_installed config w venv action
    (envconfig : EnvConfig) x :
  NoDup (map fst (envconfigs config)) ->
  (venvname_of action, envconfig) ∈ envconfigs config ->
  reader_getstring envconfig "setuptools_version" = Some x ->
  x ≠ "" ->
  install_calls (tox_testenv_install_deps venv action (tox_configure config w)).2
  = install_calls w
    ++ [ {| packages := [get_setuptools_package_version x];
            extraopts := ["--upgrade"];
            install_action := action |} ].
Proof.
  intros Hnd Hin Hget Hx.
  rewrite install_deps_truthy_log with (x := x); [|  | exact Hx].
  - now rewrite tox_configure_registry.
  - apply resolve_present.
    rewrite tox_configure_registry. simpl.
    apply record_all_unique; [now rewrite config_calls_keys | | exact Hx].
    apply config_calls_elem. now exists envconfig.
Qed.

Lemma configured_version_is_installed_witness :
  map packages
    (install_calls
       (tox_testenv_install_deps (venv_with "20.0") (py "py36")
          (tox_configure (conf [("py36", Some " SetupTools>=18 "); ("py37", None)])
             (world_with_process_var "58.0.0"))).2)
  = [["setuptools>=18"]].
Proof.
  rewrite (configured_version_is_installed
             (conf [("py36", Some " SetupTools>=18 "); ("py37", None)])
             (world_with_process_var "58.0.0") (venv_with "20.0") (py "py36")
             {| reader_getstring := fun _ => Some " SetupTools>=18 " |}
             " SetupTools>=18 ").
  - reflexivity.
  - apply (bool_decide_unpack _). vm_compute. exact I.
  - apply list_elem_of_here.
  - reflexivity.
  - discriminate.
Defined.

(** X10: after [tox_configure] has filled an empty registry, an environment that
    has an entry always gets an install request for the normalised entry:
    an entry is never empty, so it never sends the hook down the branch that
    does nothing. *)
Theorem registry_entry_always_installs config environ venv action :
  is_Some (PER_ENV_SETUPTOOLS_VERSIONS
             (tox_configure config (initial_world environ))
           !! venvname_of action) ->
  exists x,
    PER_ENV_SETUPTOOLS_VERSIONS (tox_configure config (initial_world environ))
      !! venvname_of action = Some x
    /\ install_calls
         (tox_testenv_install_deps venv action
            (tox_configure config (initial_world environ))).2
       = [ {| packages := [get_setuptools_package_version x];
              extraopts := ["--upgrade"];
              install_action := action |} ].
Proof.
  intros [x Hx]. exists x. split; [exact Hx|].
  assert (Hne : x ≠ "").
  { rewrite tox_configure_registry in Hx. simpl in Hx.
    now apply record_all_empty_lookup in Hx. }
  rewrite install_deps_truthy_log with (x := x);
    [| now apply resolve_present | exact Hne].
  now rewrite tox_configure_registry.
Qed.

Lemma registry_entry_always_installs_witness :
  exists x,
    PER_ENV_SETUPTOOLS_VERSIONS
      (tox_configure (conf [("py36", Some "19.0"); ("py36", Some "")])
         (initial_world ∅)) !! venvname_of (py "py36") = Some x
    /\ install_calls
         (tox_testenv_install_deps (venv_with "") (py "py36")
            (tox_configure (conf [("py36", Some "19.0"); ("py36", Some "")])
               (initial_world ∅))).2
       = [ {| packages := [get_setuptools_package_version x];
              extraopts := ["--upgrade"];
              install_action := py "py36" |} ].
Proof.
  apply (registry_entry_always_installs
           (conf [("py36", Some "19.0"); ("py36", Some "")]) ∅
           (venv_with "") (py "py36")).
  exists "19.0". vm_compute. reflexivity.
Defined.

(** X11: without a registry entry, a non-empty [TOX_SETUPTOOLS_VERSION] is
    installed in normalised form, taken from the environment's own variables
    or, when they lack the variable, from the process environment. *)
Theorem fallback_version_is_installed venv action w v :
  PER_ENV_SETUPTOOLS_VERSIONS w !! venvname_of action = None ->
  get_os_environ venv !! TOX_SETUPTOOLS_VERSION_VAR = Some v
  \/ (get_os_environ venv !! TOX_SETUPTOOLS_VERSION_VAR = None
      /\ os_environ w !! TOX_SETUPTOOLS_VERSION_VAR = Some v) ->
  v ≠ "" ->
  install_calls (tox_testenv_install_deps venv action w).2
  = install_calls w
    ++ [ {| packages := [get_setuptools_package_version v];
            extraopts := ["--upgrade"];
            install_action := action |} ].
Proof.
  intros Hreg Hsrc Hv. apply install_deps_truthy_log; [|exact Hv].
  rewrite resolve_missing by exact Hreg.
  unfold tox_setuptools_version_from_env, dict_get, getenv.
  destruct Hsrc as [->|[-> ->]]; reflexivity.
Qed.

Lemma fallback_version_is_installed_witness :
  map packages
    (install_calls
       (tox_testenv_install_deps venv0 (py "py37")
          (tox_configure (conf [("py36", Some "19.0")])
             (world_with_process_var "58.0.0"))).2)
  = [["setuptools==58.0.0"]].
Proof.
  rewrite (fallback_version_is_installed venv0 (py "py37")
             (tox_configure (conf [("py36", Some "19.0")])
                (world_with_process_var "58.0.0")) "58.0.0").
  - reflexivity.
  - vm_compute. reflexivity.
  - right. split; vm_compute; reflexivity.
  - discriminate.
Defined.

End InstallPhase.
